(** * Sales dashboard (app.py): the filter-and-aggregate pipeline

    A shallow embedding of the data path of [app.py]: the categorical filter
    [filter_data], the date-range mask and the filter chain of [main], the KPI
    computation [calculate_kpis] and the frames that [display_charts] builds
    and hands to the chart and to the three tables.

    Modelling conventions.
    - A DataFrame is the list of its rows in index order; only the eight
      columns the program reads are kept.
    - [ORDERDATE] holds a pandas Timestamp, modelled as an integer that
      orders the same way; every row carries a parsed date.
    - [SALES] is a float64 column.  Amounts are modelled as exact rationals
      [Q]: binary rounding is abstracted away, but the IEEE results of a
      division by zero (inf, nan) are kept, see [float64].
    - pandas and plotly are libraries: what the program asks of them is
      written out operation by operation (column selection, elementwise
      comparison, boolean indexing, groupby/sum, sort_values, head). *)

From Stdlib Require Import ZArith QArith Qabs Qround String Ascii DecimalString.
From Stdlib Require Import OrdersEx.
From stdpp Require Import base decidable option list sorting strings.

Close Scope Q_scope.
Open Scope string_scope.
Open Scope Z_scope.

(** ** Data model *)

(** One cell of a DataFrame. *)
Inductive value :=
  | VInt (n : Z)
  | VFloat (q : Q)
  | VStr (s : string)
  | VDate (t : Z).

(** One sales transaction. *)
Record Row := mkRow {
  ORDERNUMBER : Z;
  ORDERDATE : Z;
  SALES : Q;
  CUSTOMERNAME : string;
  PRODUCTCODE : string;
  PRODUCTLINE : string;
  COUNTRY : string;
  STATUS : string
}.

Abbreviation DataFrame := (list Row).

(** Outcome of an operation that may raise [KeyError]. *)
Inductive result (A : Type) :=
  | Ok (a : A)
  | KeyError (column : string).
Arguments Ok {A} a.
Arguments KeyError {A} column.

#[global] Instance result_ret : MRet result := λ A a, Ok a.
#[global] Instance result_bind : MBind result := λ A B f m,
  match m with
  | Ok a => f a
  | KeyError c => KeyError c
  end.

(** [data[column]]: the column as a series of cells, [None] for a label the
    frame does not have. *)
Definition cell (column : string) : option (Row → value) :=
  if String.eqb column "ORDERNUMBER" then Some (λ r, VInt (ORDERNUMBER r))
  else if String.eqb column "ORDERDATE" then Some (λ r, VDate (ORDERDATE r))
  else if String.eqb column "SALES" then Some (λ r, VFloat (SALES r))
  else if String.eqb column "CUSTOMERNAME" then Some (λ r, VStr (CUSTOMERNAME r))
  else if String.eqb column "PRODUCTCODE" then Some (λ r, VStr (PRODUCTCODE r))
  else if String.eqb column "PRODUCTLINE" then Some (λ r, VStr (PRODUCTLINE r))
  else if String.eqb column "COUNTRY" then Some (λ r, VStr (COUNTRY r))
  else if String.eqb column "STATUS" then Some (λ r, VStr (STATUS r))
  else None.

Definition getitem_column (data : DataFrame) (column : string) : option (list value) :=
  f ← cell column; Some (f <$> data).

(** [data[mask]]: boolean indexing, the rows whose mask entry is True. *)
Fixpoint getitem_mask (data : DataFrame) (mask : list bool) : DataFrame :=
  match data, mask with
  | r :: data', b :: mask' =>
      if b then r :: getitem_mask data' mask' else getitem_mask data' mask'
  | _, _ => []
  end.

(** Elementwise [&] of two boolean series. *)
Definition series_and (m1 m2 : list bool) : list bool := zip_with andb m1 m2.

(** [series >= t] and [series <= t] on a Timestamp series. *)
Definition series_ge (s : list Z) (t : Z) : list bool := (λ x, bool_decide (t ≤ x)) <$> s.
Definition series_le (s : list Z) (t : Z) : list bool := (λ x, bool_decide (x ≤ t)) <$> s.

Section Filtering.

(** pandas' [isin] on a datetime column given a list of str tries to read the
    strings as dates; that reader is not part of the program, so the outcome
    is a parameter: [datetime_isin t values] tells whether Timestamp [t] is
    among what [values] denotes. *)
Variable datetime_isin : Z → list string → bool.

(** [series.isin(values)] for one cell and a list of str: a str cell is
    looked up in the list, a number never equals a str. *)
Definition isin (v : value) (values : list string) : bool :=
  match v with
  | VStr s => bool_decide (s ∈ values)
  | VDate t => datetime_isin t values
  | VInt _ | VFloat _ => false
  end.

Definition series_isin (s : list value) (values : list string) : list bool :=
  (λ v, isin v values) <$> s.

(** A cell's value is in an allowed-values list. *)
Definition value_in (v : value) (L : list string) : Prop :=
  match v with
  | VStr s => s ∈ L
  | VDate t => datetime_isin t L = true
  | VInt _ | VFloat _ => False
  end.

#[global] Instance value_in_dec v L : Decision (value_in v L).
Proof. destruct v; cbn; apply _. Defined.

(** app.py, [filter_data]:
    [data[data[column].isin(values)] if values else data]. *)
Definition filter_data (data : DataFrame) (column : string) (values : list string)
    : result DataFrame :=
  match values with
  | [] => Ok data
  | _ :: _ =>
      match getitem_column data column with
      | Some series => Ok (getitem_mask data (series_isin series values))
      | None => KeyError column
      end
  end.

(** The widget state that [display_sidebar] returns to [main]. *)
Record Selection := mkSelection {
  selected_product_lines : list string;
  selected_countries : list string;
  selected_statuses : list string;
  start_date : Z;
  end_date : Z
}.

(** app.py, [main], the date-range line:
    [filtered_data[(filtered_data['ORDERDATE'] >= start_date)
                   & (filtered_data['ORDERDATE'] <= end_date)]]. *)
Definition date_range (filtered_data : DataFrame) (start_date end_date : Z) : DataFrame :=
  getitem_mask filtered_data
    (series_and (series_ge (ORDERDATE <$> filtered_data) start_date)
                (series_le (ORDERDATE <$> filtered_data) end_date)).

(** app.py, [main]: [filtered_data] as it reaches [calculate_kpis] and
    [display_charts].  The first binding is [data.copy()]. *)
Definition main_filtered_data (data : DataFrame) (sel : Selection) : result DataFrame :=
  let filtered_data := data in
  let filtered_data := date_range filtered_data (start_date sel) (end_date sel) in
  filtered_data ← filter_data filtered_data "PRODUCTLINE" (selected_product_lines sel);
  filtered_data ← filter_data filtered_data "COUNTRY" (selected_countries sel);
  filter_data filtered_data "STATUS" (selected_statuses sel).

End Filtering.

(** ** KPI computation *)

(** A numpy float64 scalar: an exact amount, or one of the IEEE specials that
    a division by zero yields. *)
Inductive float64 :=
  | Finite (q : Q)
  | PosInf
  | NegInf
  | NaN.

(** What [calculate_kpis] puts in its list: Python objects. *)
Inductive pyobj :=
  | PyStr (s : string)
  | PyInt (n : Z)
  | PyFloat (x : float64).

(** [series.sum()], 0 for the empty series. *)
Definition series_sum (s : list Q) : Q := foldr Qplus 0%Q s.

(** [series.nunique()]: how many distinct entries. *)
Definition nunique `{EqDecision A} (s : list A) : Z := Z.of_nat (length (remove_dups s)).

(** [x / n] for a float64 [x] and an int [n].  numpy does not raise on a zero
    divisor: it warns and returns nan for 0/0 and a signed inf otherwise. *)
Definition truediv (x : float64) (n : Z) : float64 :=
  match x with
  | Finite q =>
      if decide (n = 0) then
        match (q ?= 0)%Q with
        | Eq => NaN
        | Gt => PosInf
        | Lt => NegInf
        end
      else Finite (q / inject_Z n)
  | PosInf => if decide (n < 0) then NegInf else PosInf
  | NegInf => if decide (n < 0) then PosInf else NegInf
  | NaN => NaN
  end.

(** Nearest integer, ties to even. *)
Definition round_half_even (a : Q) : Z :=
  let f := Qfloor a in
  match (a - inject_Z f ?= 1 # 2)%Q with
  | Lt => f
  | Gt => f + 1
  | Eq => if Z.even f then f else f + 1
  end.

Definition digits (n : Z) : string := NilZero.string_of_uint (N.to_uint (Z.to_N n)).

(** The format spec [:.2f]: sign, integer part, a dot and two decimals. *)
Definition format_2f (x : float64) : string :=
  match x with
  | Finite q =>
      let n := round_half_even (Qabs q * 100)%Q in
      let frac := n mod 100 in
      (match (q ?= 0)%Q with Lt => "-" | _ => "" end)
        +:+ digits (n / 100) +:+ "."
        +:+ (if decide (frac < 10) then "0" else "") +:+ digits frac
  | PosInf => "inf"
  | NegInf => "-inf"
  | NaN => "nan"
  end.

(** app.py, [calculate_kpis].  The digits of the two figures are those of the
    exact quotients; the float64 quotients of the program can differ from
    them in the last decimal, or overflow.  On the table without rows both
    agree. *)
Definition calculate_kpis (data : DataFrame) : list pyobj :=
  let total_sales := Finite (series_sum (SALES <$> data)) in
  let sales_in_m := format_2f (truediv total_sales 1000000) +:+ "M" in
  let total_orders := nunique (ORDERNUMBER <$> data) in
  let average_sales_per_order :=
    format_2f (truediv (truediv total_sales total_orders) 1000) +:+ "K" in
  let unique_customers := nunique (CUSTOMERNAME <$> data) in
  [PyStr sales_in_m; PyInt total_orders; PyStr average_sales_per_order;
   PyInt unique_customers].

(** ** Chart and table frames *)

(** Python orders str by code point, lexicographically. *)
Definition str_lt (a b : string) : Prop := String_as_OT.compare a b = Lt.
Definition str_le (a b : string) : Prop := String_as_OT.compare a b ≠ Gt.

#[global] Instance str_lt_dec : RelDecision str_lt.
Proof. intros a b. unfold str_lt. solve_decision. Defined.
#[global] Instance str_le_dec : RelDecision str_le.
Proof. intros a b. unfold str_le. solve_decision. Defined.

(** [series.unique()]: the distinct entries in order of first appearance. *)
Fixpoint unique `{EqDecision A} (s : list A) : list A :=
  match s with
  | [] => []
  | x :: s' => x :: filter (λ y, y ≠ x) (unique s')
  end.

(** A frame of two columns: a group key and its SALES. *)
Abbreviation Summary := (list (string * Q)).

(** [data.groupby(key)['SALES'].sum().reset_index()]: one row per distinct
    key, keys in ascending order (groupby sorts its keys), SALES summed
    over the rows of the group. *)
Definition groupby_sum (key : Row → string) (data : DataFrame) : Summary :=
  (λ k, (k, series_sum (SALES <$> filter (λ r, key r = k) data)))
    <$> merge_sort str_le (remove_dups (key <$> data)).

(** [frame.sort_values('SALES', ascending=False)].  SALES is the only sort
    key and the sort kind is the default one, which is not stable: pandas
    promises a rearrangement of the rows with SALES descending and nothing
    about rows of equal SALES.  The operation is therefore a relation between
    the frame and the results it may give. *)
Definition sales_ge (a b : string * Q) : Prop := (b.2 <= a.2)%Q.

Definition sort_values_SALES_desc (frame sorted : Summary) : Prop :=
  sorted ≡ₚ frame ∧ Sorted sales_ge sorted.

#[global] Instance sales_ge_dec : RelDecision sales_ge.
Proof.
  intros a b. unfold sales_ge.
  destruct (Qlt_le_dec a.2 b.2) as [H|H]; [right|left]; [|done].
  by apply Qlt_not_le.
Defined.

(** One result that [sort_values] may give, used to run the model. *)
Definition sort_values_SALES_desc_run (frame : Summary) : Summary :=
  merge_sort sales_ge frame.

(** [frame.head(n)]. *)
Definition head {A} (n : nat) (frame : list A) : list A := take n frame.

(** app.py, [display_charts], [top_customers]:
    [data.groupby('CUSTOMERNAME')['SALES'].sum().reset_index()
         .sort_values('SALES', ascending=False).head(10)]. *)
Definition top_customers (data : DataFrame) (out : Summary) : Prop :=
  ∃ sorted,
    sort_values_SALES_desc (groupby_sum CUSTOMERNAME data) sorted
    ∧ out = head 10 sorted.

Definition top_customers_run (data : DataFrame) : Summary :=
  head 10 (sort_values_SALES_desc_run (groupby_sum CUSTOMERNAME data)).

(** app.py, [display_charts], [total_sales_by_product_line]:
    [data.groupby('PRODUCTLINE')['SALES'].sum().reset_index()]. *)
Definition total_sales_by_product_line (data : DataFrame) : Summary :=
  groupby_sum PRODUCTLINE data.

(** One trace of a plotly figure: the colour value it stands for, if any, and
    its points. *)
Record Trace := mkTrace {
  trace_name : option string;
  trace_points : list (Z * Q)
}.

(** [px.area(data, x=..., y=..., color=...)]: plotly express plots the frame
    as given, one point per row.  Without [color] all rows form a single
    trace; with [color] there is one trace per value of that column, in order
    of first appearance, holding the rows of that value in row order. *)
Definition px_area (data_frame : DataFrame) (x : Row → Z) (y : Row → Q)
    (color : option (Row → string)) : list Trace :=
  match color with
  | None => [mkTrace None ((λ r, (x r, y r)) <$> data_frame)]
  | Some c =>
      (λ k, mkTrace (Some k) ((λ r, (x r, y r)) <$> filter (λ r, c r = k) data_frame))
        <$> unique (c <$> data_frame)
  end.

(** app.py, [display_charts], the figure: the checkbox value picks between
    the two [px.area] calls. *)
Definition display_charts_fig (data : DataFrame) (combine_product_lines : bool)
    : list Trace :=
  if combine_product_lines then px_area data ORDERDATE SALES None
  else px_area data ORDERDATE SALES (Some PRODUCTLINE).

(** ** The rest of [display_charts], [display_kpi_metrics], [display_sidebar]
       and [main] *)

(** Python orders tuples of str lexicographically. *)
Definition pair_le (a b : string * string) : Prop :=
  str_lt a.1 b.1 ∨ (a.1 = b.1 ∧ str_le a.2 b.2).

#[global] Instance pair_le_dec : RelDecision pair_le.
Proof. intros a b. unfold pair_le. apply _. Defined.

(** [data.groupby([key1, key2])['SALES'].sum().reset_index()]: one row per
    pair of values that occurs, pairs in ascending order, SALES summed over
    the rows of the group. *)
Definition groupby2_sum (key1 key2 : Row → string) (data : DataFrame)
    : list (string * string * Q) :=
  (λ k, (k, series_sum (SALES <$> filter (λ r, (key1 r, key2 r) = k) data)))
    <$> merge_sort pair_le (remove_dups ((λ r, (key1 r, key2 r)) <$> data)).

(** [sort_values('SALES', ascending=False)] on a frame with any group key:
    as for [sort_values_SALES_desc], a relation. *)
Definition by_sales_desc {K} (a b : K * Q) : Prop := (b.2 <= a.2)%Q.

Definition sort_values_by_sales_desc {K} (frame sorted : list (K * Q)) : Prop :=
  sorted ≡ₚ frame ∧ Sorted by_sales_desc sorted.

#[global] Instance by_sales_desc_dec {K} : RelDecision (@by_sales_desc K).
Proof.
  intros a b. unfold by_sales_desc.
  destruct (Qlt_le_dec a.2 b.2) as [H|H]; [right|left]; [|done].
  by apply Qlt_not_le.
Defined.

(** app.py, [display_charts], [top_products]:
    [data.groupby(['PRODUCTCODE', 'PRODUCTLINE'])['SALES'].sum().reset_index()
         .sort_values('SALES', ascending=False).head(10)]. *)
Definition top_products (data : DataFrame) (out : list (string * string * Q)) : Prop :=
  ∃ sorted,
    sort_values_by_sales_desc (groupby2_sum PRODUCTCODE PRODUCTLINE data) sorted
    ∧ out = head 10 sorted.

Definition top_products_run (data : DataFrame) : list (string * string * Q) :=
  head 10 (merge_sort by_sales_desc (groupby2_sum PRODUCTCODE PRODUCTLINE data)).

(** [st.columns(n)]: the column containers, named by position. *)
Definition st_columns (n : nat) : list nat := seq 0 n.

(** One call [col.metric(label=kpi_name, value=kpi_value)]. *)
Record Metric := mkMetric {
  metric_col : nat;
  metric_label : string;
  metric_value : pyobj
}.

(** app.py, [display_kpi_metrics]: the [metric] calls of the loop over
    [zip(st.columns(4), zip(kpi_names, kpis))], in order. *)
Definition display_kpi_metrics (kpis : list pyobj) (kpi_names : list string)
    : list Metric :=
  (λ c, mkMetric c.1 c.2.1 c.2.2) <$> zip (st_columns 4) (zip kpi_names kpis).

(** app.py, [main]: the labels of the four KPIs. *)
Definition kpi_names : list string :=
  ["Total Sales"; "Total Orders"; "Average Sales per Order"; "Unique Customers"].

(** app.py, [main]: the metrics shown for a loaded table and a selection. *)
Definition main_metrics (datetime_isin : Z → list string → bool)
    (data : DataFrame) (sel : Selection) : result (list Metric) :=
  filtered_data ← main_filtered_data datetime_isin data sel;
  let kpis := calculate_kpis filtered_data in
  mret (display_kpi_metrics kpis kpi_names).

(** [series.min()] and [series.max()] of a Timestamp series; [None] is NaT,
    the answer for an empty series. *)
Definition series_min (s : list Z) : option Z :=
  match s with
  | [] => None
  | x :: s' => Some (foldr Z.min x s')
  end.

Definition series_max (s : list Z) : option Z :=
  match s with
  | [] => None
  | x :: s' => Some (foldr Z.max x s')
  end.

(** [sorted(data['PRODUCTLINE'].unique())]: the options of the product-line
    widget. *)
Definition product_lines (data : DataFrame) : list string :=
  merge_sort str_le (unique (PRODUCTLINE <$> data)).

Section Sidebar.

(** [pd.Timestamp(t.date())]: the Timestamp of the start of the day of [t]. *)
Variable midnight : Z → Z.

(** app.py, [display_sidebar], on a first run: no widget has been touched,
    so each returns the value it was given as default.  The test on
    [locals()] holds, [end_date] not being bound yet.  An empty frame has NaT
    for its extreme dates; what the date widgets do with NaT is not
    modelled, the answer is [None]. *)
Definition display_sidebar_initial (data : DataFrame) : option Selection :=
  hi ← series_max (ORDERDATE <$> data);
  lo ← series_min (ORDERDATE <$> data);
  let end_date := midnight hi in
  let start_date := midnight lo in
  let end_date := midnight end_date in
  let selected_product_lines := product_lines data in
  let selected_countries := [] in
  let selected_statuses := [] in
  Some (mkSelection selected_product_lines selected_countries selected_statuses
          start_date end_date).

End Sidebar.

(** ** The contracts of the specification *)

(** [applyDateRange(table, start, end)]: keep the rows with
    [start <= order_date <= end]. *)
Definition applyDateRange (table : DataFrame) (start end_ : Z) : DataFrame :=
  filter (λ r, start ≤ ORDERDATE r ≤ end_) table.

(** [applyCategoricalFilter(table, column, allowedValues)]: keep all rows if
    [allowedValues] is empty, else the rows whose value in [column] is a
    member of it. *)
Definition applyCategoricalFilter (table : DataFrame) (column : Row → string)
    (allowedValues : list string) : DataFrame :=
  match allowedValues with
  | [] => table
  | _ :: _ => filter (λ r, column r ∈ allowedValues) table
  end.

(** The four stages of the pipeline in the documented order. *)
Definition pipeline_stages (sel : Selection) : list (DataFrame → DataFrame) :=
  [ λ t, applyDateRange t (start_date sel) (end_date sel);
    λ t, applyCategoricalFilter t PRODUCTLINE (selected_product_lines sel);
    λ t, applyCategoricalFilter t COUNTRY (selected_countries sel);
    λ t, applyCategoricalFilter t STATUS (selected_statuses sel) ].







(** The KPI contract on the empty table: every metric is the number 0. *)
Definition is_zero (v : pyobj) : Prop :=
  match v with
  | PyInt n => n = 0
  | PyFloat (Finite q) => (q == 0)%Q
  | PyFloat _ | PyStr _ => False
  end.

Definition KPIResult_zero (kpis : list pyobj) : Prop :=
  length kpis = 4%nat ∧ Forall is_zero kpis.

(** [salesOverTime(table, combineLines)]: sales summed per order date, as
    one series, or per (order date, product line), as one series per product
    line. *)
Definition sum_by_date (rows : DataFrame) : list (Z * Q) :=
  (λ d, (d, series_sum (SALES <$> filter (λ r, ORDERDATE r = d) rows)))
    <$> merge_sort Z.le (remove_dups (ORDERDATE <$> rows)).

Definition salesOverTime (table : DataFrame) (combineLines : bool) : list Trace :=
  if combineLines then [mkTrace None (sum_by_date table)]
  else (λ k, mkTrace (Some k) (sum_by_date (filter (λ r, PRODUCTLINE r = k) table)))
         <$> unique (PRODUCTLINE <$> table).

(** A series that is an aggregation per date has one point per date. *)
Definition one_point_per_date (tr : Trace) : Prop := NoDup (trace_points tr).*1.

(** The ranking of [topCustomers]: summed sales descending, equal sums by
    customer name ascending. *)
Definition ranked_before (a b : string * Q) : Prop :=
  (b.2 < a.2)%Q ∨ ((b.2 == a.2)%Q ∧ str_le a.1 b.1).

Definition topCustomers_ranked (out : Summary) : Prop :=
  (length out ≤ 10)%nat ∧ Sorted ranked_before out.

(** ** Fixtures *)

(** The three-row table of the scenario; a day is written yyyymmdd. *)
Definition T3 : DataFrame :=
  [ mkRow 1 20240101 100 "A" "S1" "Vans" "USA" "Shipped";
    mkRow 2 20240102 200 "B" "S2" "Trucks" "USA" "Shipped";
    mkRow 3 20240201 50 "A" "S1" "Vans" "USA" "Shipped" ].

(** Two orders of one product line on the same day. *)
Definition T_same_day : DataFrame :=
  [ mkRow 1 20240101 100 "A" "S1" "Vans" "USA" "Shipped";
    mkRow 2 20240101 200 "B" "S2" "Vans" "USA" "Shipped" ].

(** Four customers; the two smallest totals, of A and of B, are equal. *)
Definition T_tie4 : DataFrame :=
  [ mkRow 1 20240101 100 "A" "S1" "Vans" "USA" "Shipped";
    mkRow 2 20240102 100 "B" "S2" "Trucks" "USA" "Shipped";
    mkRow 3 20240103 300 "C" "S3" "Vans" "USA" "Shipped";
    mkRow 4 20240104 200 "D" "S4" "Trucks" "USA" "Shipped" ].

(** The line with the smaller name has the larger total. *)
Definition T_by_name : DataFrame :=
  [ mkRow 1 20240101 100 "A" "S1" "Vans" "USA" "Shipped";
    mkRow 2 20240102 200 "B" "S2" "Trucks" "USA" "Shipped";
    mkRow 3 20240103 500 "A" "S1" "Vans" "USA" "Shipped" ].

(** No reading of str as dates: enough to run the categorical filters. *)
Definition no_datetime_isin (t : Z) (values : list string) : bool := false.

(** ** The filter pipeline *)

Lemma getitem_mask_fmap (p : Row → bool) (data : DataFrame) :
  getitem_mask data (p <$> data) = filter (λ r, p r = true) data.
Proof.
  induction data as [|r data IH]; [done|].
  cbn [fmap list_fmap getitem_mask]. rewrite filter_cons.
  destruct (p r) eqn:Hp; case_decide; try done; by rewrite IH.
Qed.

Lemma series_and_fmap (p q : Z → bool) (s : list Z) :
  series_and (p <$> s) (q <$> s) = (λ x, p x && q x) <$> s.
Proof.
  unfold series_and. induction s as [|x s IH]; [done|].
  cbn. by rewrite IH.
Qed.

Lemma date_range_filter (data : DataFrame) (s e : Z) :
  date_range data s e = filter (λ r, s ≤ ORDERDATE r ≤ e) data.
Proof.
  unfold date_range, series_ge, series_le.
  rewrite series_and_fmap, <- list_fmap_compose, getitem_mask_fmap.
  apply list_filter_iff. intros r. cbn.
  rewrite andb_true_iff, !bool_decide_eq_true. done.
Qed.

Section FilteringFacts.

Context (datetime_isin : Z → list string → bool).

Lemma isin_value_in (v : value) (L : list string) :
  isin datetime_isin v L = true ↔ value_in datetime_isin v L.
Proof. destruct v; cbn; rewrite ?bool_decide_eq_true; try done; by split. Qed.

Lemma filter_data_nonempty (T : DataFrame) (col : string) (L : list string)
    (f : Row → value) :
  L ≠ [] → cell col = Some f →
  filter_data datetime_isin T col L = Ok (filter (λ r, value_in datetime_isin (f r) L) T).
Proof.
  intros HL Hcol. unfold filter_data, getitem_column, series_isin.
  destruct L as [|v L]; [done|]. rewrite Hcol. cbn [mbind option_bind].
  rewrite <- list_fmap_compose, getitem_mask_fmap. f_equal.
  apply list_filter_iff. intros r. apply isin_value_in.
Qed.

Lemma filter_data_unknown (T : DataFrame) (col : string) (L : list string) :
  L ≠ [] → cell col = None → filter_data datetime_isin T col L = KeyError col.
Proof.
  intros HL Hcol. unfold filter_data, getitem_column.
  destruct L as [|v L]; [done|]. by rewrite Hcol.
Qed.

Lemma filter_data_categorical (T : DataFrame) (col : string) (L : list string)
    (key : Row → string) :
  cell col = Some (λ r, VStr (key r)) →
  filter_data datetime_isin T col L = Ok (applyCategoricalFilter T key L).
Proof.
  intros Hcol. destruct L as [|v L]; [done|].
  rewrite (filter_data_nonempty T col (v :: L) _ ltac:(done) Hcol).
  reflexivity.
Qed.

(** C6: with an empty allowed-values list [filter_data] hands back the table
    it was given, whatever the column label: an empty list means no
    restriction. *)
Theorem filter_data_empty_identity (T : DataFrame) (col : string) :
  filter_data datetime_isin T col [] = Ok T.
Proof. reflexivity. Qed.

(** C7: for a column of the table and a non-empty allowed-values list,
    [filter_data] returns a table; every row of it has its [col] value in the
    list (soundness) and every row of the input whose [col] value is in the
    list is in it (completeness).  The result is in fact the input with the
    other rows struck out, so repeated rows are kept as often as they occur. *)
Theorem filter_data_sound_complete (T : DataFrame) (col : string)
    (L : list string) (f : Row → value) :
  L ≠ [] → cell col = Some f →
  ∃ T', filter_data datetime_isin T col L = Ok T'
    ∧ (∀ r, r ∈ T' → r ∈ T ∧ value_in datetime_isin (f r) L)
    ∧ (∀ r, r ∈ T → value_in datetime_isin (f r) L → r ∈ T')
    ∧ T' = filter (λ r, value_in datetime_isin (f r) L) T.
Proof.
  intros HL Hcol. eexists. split; [by apply filter_data_nonempty|].
  split_and!; [| |done].
  - intros r Hr. by apply list_elem_of_filter in Hr as [? ?].
  - intros r Hr Hin. by apply list_elem_of_filter.
Qed.

(** C8: the date-range step keeps exactly the rows with
    [start <= ORDERDATE <= end], both bounds included, in their order; a
    second application with the same bounds changes nothing. *)
Theorem date_range_inclusive_idempotent (T : DataFrame) (s e : Z) :
  date_range T s e = applyDateRange T s e
  ∧ (∀ r, r ∈ date_range T s e ↔ r ∈ T ∧ s ≤ ORDERDATE r ∧ ORDERDATE r ≤ e)
  ∧ date_range (date_range T s e) s e = date_range T s e.
Proof.
  split_and!.
  - apply date_range_filter.
  - intros r. rewrite date_range_filter, list_elem_of_filter. tauto.
  - rewrite !date_range_filter, list_filter_filter.
    apply list_filter_iff. tauto.
Qed.

(** C5: the table that [main] passes on is the left-to-right fold of the
    four stages over the loaded table: date range, then product line, then
    country, then status, each stage applied to the output of the one
    before; no stage raises. *)
Theorem main_filtered_data_fold (data : DataFrame) (sel : Selection) :
  main_filtered_data datetime_isin data sel
  = Ok (foldl (λ t stage, stage t) data (pipeline_stages sel)).
Proof.
  unfold main_filtered_data, pipeline_stages. cbn [foldl].
  rewrite date_range_filter. fold (applyDateRange data (start_date sel) (end_date sel)).
  rewrite (filter_data_categorical _ "PRODUCTLINE" _ PRODUCTLINE) by done.
  cbn [mbind result_bind].
  rewrite (filter_data_categorical _ "COUNTRY" _ COUNTRY) by done.
  cbn [mbind result_bind].
  by rewrite (filter_data_categorical _ "STATUS" _ STATUS).
Qed.

Lemma applyCategoricalFilter_sublist (t : DataFrame) key L :
  applyCategoricalFilter t key L `sublist_of` t.
Proof. destruct L; [done|]. apply sublist_filter. Qed.

(** C10: [filter_data] either raises [KeyError] (an unknown label with a
    non-empty list) or returns an order-preserving subsequence of its input,
    rows unchanged; and in [main] the output of every stage is a subsequence
    of the stage before, hence of the loaded table. *)
Theorem filter_data_subsequence (T : DataFrame) (col : string) (L : list string) :
  match filter_data datetime_isin T col L with
  | Ok T' => T' `sublist_of` T
  | KeyError c => c = col ∧ cell col = None ∧ L ≠ []
  end
  ∧ ∀ sel : Selection,
      ∃ t1 t2 t3 t4,
        t1 = date_range T (start_date sel) (end_date sel)
        ∧ filter_data datetime_isin t1 "PRODUCTLINE" (selected_product_lines sel) = Ok t2
        ∧ filter_data datetime_isin t2 "COUNTRY" (selected_countries sel) = Ok t3
        ∧ filter_data datetime_isin t3 "STATUS" (selected_statuses sel) = Ok t4
        ∧ main_filtered_data datetime_isin T sel = Ok t4
        ∧ t1 `sublist_of` T ∧ t2 `sublist_of` t1
        ∧ t3 `sublist_of` t2 ∧ t4 `sublist_of` t3
        ∧ t2 `sublist_of` T ∧ t3 `sublist_of` T ∧ t4 `sublist_of` T
        ∧ t4 ⊆ T.
Proof.
  split.
  - destruct L as [|v L]; [by cbn|].
    destruct (cell col) as [f|] eqn:Hcol.
    + rewrite (filter_data_nonempty _ _ _ f) by done. apply sublist_filter.
    + by rewrite filter_data_unknown.
  - intros sel.
    set (t1 := date_range T (start_date sel) (end_date sel)).
    set (t2 := applyCategoricalFilter t1 PRODUCTLINE (selected_product_lines sel)).
    set (t3 := applyCategoricalFilter t2 COUNTRY (selected_countries sel)).
    set (t4 := applyCategoricalFilter t3 STATUS (selected_statuses sel)).
    assert (H1 : t1 `sublist_of` T).
    { unfold t1. rewrite date_range_filter. apply sublist_filter. }
    pose proof (applyCategoricalFilter_sublist t1 PRODUCTLINE (selected_product_lines sel)) as H2.
    pose proof (applyCategoricalFilter_sublist t2 COUNTRY (selected_countries sel)) as H3.
    pose proof (applyCategoricalFilter_sublist t3 STATUS (selected_statuses sel)) as H4.
    fold t2 in H2. fold t3 in H3. fold t4 in H4.
    exists t1, t2, t3, t4. split_and!; try done.
    + by apply filter_data_categorical.
    + by apply filter_data_categorical.
    + by apply filter_data_categorical.
    + unfold main_filtered_data. fold t1.
      rewrite (filter_data_categorical _ "PRODUCTLINE" _ PRODUCTLINE) by done.
      cbn [mbind result_bind]. fold t2.
      rewrite (filter_data_categorical _ "COUNTRY" _ COUNTRY) by done.
      cbn [mbind result_bind]. fold t3.
      by rewrite (filter_data_categorical _ "STATUS" _ STATUS).
    + by etrans.
    + by repeat (etrans; [eassumption|]).
    + by repeat (etrans; [eassumption|]).
    + apply sublist_subseteq. by repeat (etrans; [eassumption|]).
Qed.

End FilteringFacts.

Lemma filter_data_sound_complete_witness :
  ∃ T', filter_data no_datetime_isin T3 "PRODUCTLINE" ["Vans"] = Ok T'
    ∧ (∀ r, r ∈ T' → r ∈ T3 ∧ value_in no_datetime_isin (VStr (PRODUCTLINE r)) ["Vans"])
    ∧ (∀ r, r ∈ T3 → value_in no_datetime_isin (VStr (PRODUCTLINE r)) ["Vans"] → r ∈ T')
    ∧ T' = filter (λ r, value_in no_datetime_isin (VStr (PRODUCTLINE r)) ["Vans"]) T3.
Proof.
  apply (filter_data_sound_complete no_datetime_isin T3 "PRODUCTLINE" ["Vans"]
           (λ r, VStr (PRODUCTLINE r))).
  - discriminate.
  - reflexivity.
Defined.

(** ** KPIs *)

Lemma nunique_nonneg `{EqDecision A} (s : list A) : 0 ≤ nunique s.
Proof. unfold nunique. lia. Qed.

Lemma nunique_zero `{EqDecision A} (s : list A) : nunique s = 0 → s = [].
Proof.
  unfold nunique. intros H.
  assert (Hnil : remove_dups s = []) by (apply length_zero_iff_nil; lia).
  destruct s as [|x s]; [done|].
  assert (Hx : x ∈ remove_dups (x :: s)) by (apply elem_of_remove_dups; left).
  rewrite Hnil in Hx. by apply not_elem_of_nil in Hx.
Qed.

Lemma remove_dups_length_le `{EqDecision A} (s : list A) :
  (length (remove_dups s) ≤ length s)%nat.
Proof.
  induction s as [|x s IH]; [done|]. cbn. case_decide; cbn; lia.
Qed.

Lemma nunique_spec `{EqDecision A} (s : list A) :
  ∃ keys, NoDup keys ∧ (∀ k, k ∈ keys ↔ k ∈ s)
    ∧ nunique s = Z.of_nat (length keys) ∧ nunique s ≤ Z.of_nat (length s).
Proof.
  exists (remove_dups s). split_and!.
  - apply NoDup_remove_dups.
  - apply elem_of_remove_dups.
  - done.
  - unfold nunique. pose proof (remove_dups_length_le s). lia.
Qed.








(** C2 (as the code has it): when the table holds no order, the total is
    shown as the string 0.00M and both counts are the int 0; the entry for
    the average per order is left open here. *)
Theorem calculate_kpis_no_orders (data : DataFrame) :
  nunique (ORDERNUMBER <$> data) = 0 →
  ∃ average_sales_per_order,
    calculate_kpis data
    = [PyStr "0.00M"; PyInt 0; average_sales_per_order; PyInt 0].
Proof.
  intros H. apply nunique_zero in H. apply fmap_nil_inv in H. subst data.
  eexists. reflexivity.
Qed.

Lemma calculate_kpis_no_orders_witness :
  ∃ average_sales_per_order,
    calculate_kpis [] = [PyStr "0.00M"; PyInt 0; average_sales_per_order; PyInt 0].
Proof. apply (calculate_kpis_no_orders []). reflexivity. Defined.

(** C2, the claim as written fails: on the empty table the division by the
    zero order count yields nan, shown as the string nanK, and the total is a
    string as well. *)
Lemma calculate_kpis_empty_not_zero :
  calculate_kpis [] = [PyStr "0.00M"; PyInt 0; PyStr "nanK"; PyInt 0]
  ∧ ¬ KPIResult_zero (calculate_kpis []).
Proof.
  split; [reflexivity|].
  intros [_ H]. apply Forall_cons in H as [H _]. exact H.
Qed.

(** ** The order on str *)

Lemma str_compare_Gt (a b : string) :
  String_as_OT.compare a b = Gt → String_as_OT.compare b a = Lt.
Proof.
  intros H. destruct (String_as_OT.compare_spec a b) as [?|?|Hlt]; try discriminate.
  exact Hlt.
Qed.

Lemma str_compare_Eq (a b : string) : String_as_OT.compare a b = Eq → a = b.
Proof.
  intros H. destruct (String_as_OT.compare_spec a b) as [Heq|?|?]; try discriminate.
  exact Heq.
Qed.

Lemma str_lt_trans (a b c : string) : str_lt a b → str_lt b c → str_lt a c.
Proof. apply String_as_OT.lt_strorder. Qed.

Lemma str_lt_irrefl (a : string) : ¬ str_lt a a.
Proof. apply String_as_OT.lt_strorder. Qed.

Lemma str_le_lt_or_eq (a b : string) : str_le a b ↔ str_lt a b ∨ a = b.
Proof.
  unfold str_le, str_lt. split.
  - intros H. destruct (String_as_OT.compare a b) eqn:Hc; [|by left|done].
    right. by apply str_compare_Eq.
  - intros [H| ->]; [by rewrite H|].
    intros H. apply str_compare_Gt in H as H'. congruence.
Qed.

#[global] Instance str_le_total : Total str_le.
Proof.
  intros a b. unfold str_le.
  destruct (String_as_OT.compare a b) eqn:Hc; [by left|by left|].
  right. by rewrite (str_compare_Gt _ _ Hc).
Qed.

#[global] Instance str_le_trans : Transitive str_le.
Proof.
  intros a b c. rewrite !str_le_lt_or_eq.
  intros [H1| ->] [H2| ->]; eauto using str_lt_trans.
Qed.

Lemma StronglySorted_strict {A} (R S : relation A) (l : list A) :
  (∀ x y, R x y → x ≠ y → S x y) →
  StronglySorted R l → NoDup l → StronglySorted S l.
Proof.
  intros HRS Hsorted. induction Hsorted as [|x l _ IH Hall]; intros Hnd.
  - constructor.
  - apply NoDup_cons in Hnd as [Hx Hnd]. constructor; [by apply IH|].
    rewrite Forall_forall in *. intros y Hy.
    apply HRS; [by apply Hall|]. intros ->. by apply Hx.
Qed.

(** ** Grouping *)

Lemma groupby_sum_keys (key : Row → string) (data : DataFrame) :
  (groupby_sum key data).*1 = merge_sort str_le (remove_dups (key <$> data)).
Proof.
  unfold groupby_sum. rewrite <- list_fmap_compose. apply list_fmap_id.
Qed.

Lemma groupby_sum_key_elem (key : Row → string) (data : DataFrame) (k : string) :
  k ∈ (groupby_sum key data).*1 ↔ ∃ r, r ∈ data ∧ key r = k.
Proof.
  rewrite groupby_sum_keys, merge_sort_Permutation, elem_of_remove_dups,
    list_elem_of_fmap.
  split; intros (r & H1 & H2); exists r; by split.
Qed.

Lemma groupby_sum_keys_NoDup (key : Row → string) (data : DataFrame) :
  NoDup (groupby_sum key data).*1.
Proof.
  rewrite groupby_sum_keys, merge_sort_Permutation. apply NoDup_remove_dups.
Qed.

Lemma groupby_sum_keys_ascending (key : Row → string) (data : DataFrame) :
  StronglySorted str_lt (groupby_sum key data).*1.
Proof.
  apply (StronglySorted_strict str_le).
  - intros x y Hle Hne. apply str_le_lt_or_eq in Hle as [?| ->]; done.
  - rewrite groupby_sum_keys. apply StronglySorted_merge_sort; apply _.
  - apply groupby_sum_keys_NoDup.
Qed.

Lemma groupby_sum_elem (key : Row → string) (data : DataFrame) (k : string) (s : Q) :
  (k, s) ∈ groupby_sum key data ↔
    (∃ r, r ∈ data ∧ key r = k)
    ∧ s = series_sum (SALES <$> filter (λ r, key r = k) data).
Proof.
  unfold groupby_sum. rewrite list_elem_of_fmap. split.
  - intros (k' & [= -> ->] & Hk). split; [|done].
    rewrite merge_sort_Permutation, elem_of_remove_dups, list_elem_of_fmap in Hk.
    destruct Hk as (r & -> & Hr). by exists r.
  - intros [(r & Hr & <-) ->]. exists (key r). split; [done|].
    rewrite merge_sort_Permutation, elem_of_remove_dups, list_elem_of_fmap.
    by exists r.
Qed.

(** C9: [total_sales_by_product_line] has one row per product line of the
    table, none left out, each with the sum of the sales of that line; the
    rows are in strictly ascending order of product-line name, whatever the
    sums are. *)
Theorem total_sales_by_product_line_by_name (data : DataFrame) :
  StronglySorted str_lt (total_sales_by_product_line data).*1
  ∧ (∀ k, k ∈ (total_sales_by_product_line data).*1
          ↔ ∃ r, r ∈ data ∧ PRODUCTLINE r = k)
  ∧ (∀ k s, (k, s) ∈ total_sales_by_product_line data →
       s = series_sum (SALES <$> filter (λ r, PRODUCTLINE r = k) data))
  ∧ length (total_sales_by_product_line data)
    = length (remove_dups (PRODUCTLINE <$> data)).
Proof.
  unfold total_sales_by_product_line. split_and!.
  - apply groupby_sum_keys_ascending.
  - apply groupby_sum_key_elem.
  - intros k s H. by apply groupby_sum_elem in H as [_ ?].
  - unfold groupby_sum. by rewrite length_fmap, merge_sort_Permutation.
Qed.

Example totals_by_name_not_by_sum :
  total_sales_by_product_line T_by_name = [("Trucks", 200%Q); ("Vans", 600%Q)].
Proof. reflexivity. Qed.

(** ** Top customers *)

#[global] Instance sales_ge_total : Total sales_ge.
Proof.
  intros a b. unfold sales_ge.
  destruct (Qlt_le_dec a.2 b.2) as [H|H]; [right|left]; [|done].
  by apply Qlt_le_weak.
Qed.

#[global] Instance sales_ge_trans : Transitive sales_ge.
Proof. intros a b c H1 H2. unfold sales_ge in *. by eapply Qle_trans. Qed.

Lemma sort_values_SALES_desc_run_ok (frame : Summary) :
  sort_values_SALES_desc frame (sort_values_SALES_desc_run frame).
Proof.
  split; [apply merge_sort_Permutation|apply Sorted_merge_sort; apply _].
Qed.

Lemma top_customers_run_ok (data : DataFrame) :
  top_customers data (top_customers_run data).
Proof. eexists. split; [apply sort_values_SALES_desc_run_ok|done]. Qed.

(** C4 (as the code has it): [top_customers] always yields a result; any
    result has at most 10 rows, one per customer, each with the sum of that
    customer's sales, in descending order of the sums, and no customer left
    out has a larger sum than one that is shown.  The order of customers
    with equal sums is not fixed. *)
Theorem top_customers_ranked_by_sales (data : DataFrame) :
  top_customers data (top_customers_run data)
  ∧ ∀ out, top_customers data out →
      (length out ≤ 10)%nat
      ∧ StronglySorted sales_ge out
      ∧ NoDup out.*1
      ∧ (∀ c s, (c, s) ∈ out →
           (∃ r, r ∈ data ∧ CUSTOMERNAME r = c)
           ∧ s = series_sum (SALES <$> filter (λ r, CUSTOMERNAME r = c) data))
      ∧ length out = (10 `min` length (remove_dups (CUSTOMERNAME <$> data)))%nat
      ∧ (∀ c s, (c, s) ∈ groupby_sum CUSTOMERNAME data → (c, s) ∉ out →
           ∀ c' s', (c', s') ∈ out → (s <= s')%Q).
Proof.
  split; [apply top_customers_run_ok|].
  intros out (sorted & [Hperm Hsorted] & ->). unfold head.
  apply (Sorted_StronglySorted _ _) in Hsorted.
  rewrite <- (take_drop 10 sorted) in Hsorted, Hperm.
  split_and!.
  - rewrite length_take. lia.
  - by apply StronglySorted_app_1_l in Hsorted.
  - eapply sublist_NoDup; [|apply fmap_sublist, sublist_take].
    rewrite (take_drop 10 sorted) in Hperm. rewrite Hperm.
    apply groupby_sum_keys_NoDup.
  - intros c s Hin. apply groupby_sum_elem. rewrite <- Hperm.
    apply elem_of_app. by left.
  - rewrite length_take. f_equal.
    rewrite (take_drop 10 sorted) in Hperm. rewrite Hperm.
    unfold groupby_sum. by rewrite length_fmap, merge_sort_Permutation.
  - intros c s Hin Hout c' s' Hin'.
    rewrite <- Hperm in Hin. apply elem_of_app in Hin as [?|Hin]; [done|].
    apply (StronglySorted_app_1_elem_of _ _ _ _ _ Hsorted Hin' Hin).
Qed.

Lemma top_customers_ranked_by_sales_witness :
  top_customers T3 [("B", 200%Q); ("A", 150%Q)]
  ∧ StronglySorted sales_ge [("B", 200%Q); ("A", 150%Q)].
Proof.
  assert (H : top_customers T3 [("B", 200%Q); ("A", 150%Q)]).
  { exists [("B", 200%Q); ("A", 150%Q)]. split; [|reflexivity]. split.
    - change (groupby_sum CUSTOMERNAME T3) with [("A", 150%Q); ("B", 200%Q)].
      apply perm_swap.
    - repeat constructor. unfold sales_ge, Qle. cbn. lia. }
  split; [exact H|].
  exact (proj1 (proj2 (proj2 (top_customers_ranked_by_sales T3) _ H))).
Defined.

(** C4, the claim as written fails: C has the largest total, D the next,
    A and B the same smaller one.  The result that lists B before A is one
    the code may give, and it is not ranked by name among the equal sums. *)
Lemma top_customers_tie_unordered :
  top_customers T_tie4
    [("C", 300%Q); ("D", 200%Q); ("B", 100%Q); ("A", 100%Q)]
  ∧ ¬ topCustomers_ranked
        [("C", 300%Q); ("D", 200%Q); ("B", 100%Q); ("A", 100%Q)]
  ∧ ¬ (∀ out, top_customers T_tie4 out → topCustomers_ranked out).
Proof.
  assert (H : top_customers T_tie4
                [("C", 300%Q); ("D", 200%Q); ("B", 100%Q); ("A", 100%Q)]).
  { exists [("C", 300%Q); ("D", 200%Q); ("B", 100%Q); ("A", 100%Q)].
    split; [|reflexivity]. split.
    - change (groupby_sum CUSTOMERNAME T_tie4)
        with [("A", 100%Q); ("B", 100%Q); ("C", 300%Q); ("D", 200%Q)].
      apply (Permutation_cons_app [("A", 100%Q); ("B", 100%Q)] [("D", 200%Q)]).
      apply (Permutation_cons_app [("A", 100%Q); ("B", 100%Q)] []).
      apply perm_swap.
    - repeat constructor; unfold sales_ge, Qle; cbn; lia. }
  assert (Hnot : ¬ topCustomers_ranked
                     [("C", 300%Q); ("D", 200%Q); ("B", 100%Q); ("A", 100%Q)]).
  { intros [_ Hs].
    apply Sorted_inv in Hs as [Hs _]. apply Sorted_inv in Hs as [Hs _].
    apply Sorted_inv in Hs as [_ Hs]. apply HdRel_inv in Hs.
    destruct Hs as [Hs|[_ Hs]].
    - cbn in Hs. by apply Qlt_irrefl in Hs.
    - by apply Hs. }
  split; [exact H|]. split; [exact Hnot|].
  intros Hall. by apply Hnot, Hall.
Qed.

(** ** The area chart *)

Lemma elem_of_unique `{EqDecision A} (s : list A) (x : A) : x ∈ unique s ↔ x ∈ s.
Proof.
  induction s as [|y s IH]; [done|]. cbn [unique].
  rewrite !elem_of_cons, list_elem_of_filter, IH.
  destruct (decide (x = y)); tauto.
Qed.

Lemma NoDup_unique `{EqDecision A} (s : list A) : NoDup (unique s).
Proof.
  induction s as [|y s IH]; [constructor|]. cbn [unique].
  apply NoDup_cons. split.
  - rewrite list_elem_of_filter. intros [Hne _]. by apply Hne.
  - by apply NoDup_filter.
Qed.

Lemma filter_disjoint_app {A} (P Q : A → Prop)
    `{!∀ x, Decision (P x)} `{!∀ x, Decision (Q x)} (l : list A) :
  (∀ x, P x → Q x → False) →
  filter P l ++ filter Q l ≡ₚ filter (λ x, P x ∨ Q x) l.
Proof.
  intros Hdisj. induction l as [|x l IH]; [done|].
  rewrite !filter_cons.
  destruct (decide (P x)) as [HP|HP], (decide (Q x)) as [HQ|HQ].
  - destruct (Hdisj x HP HQ).
  - rewrite decide_True by auto. cbn. by rewrite IH.
  - rewrite decide_True by auto. rewrite <- Permutation_middle. by rewrite IH.
  - rewrite decide_False by tauto. done.
Qed.

Lemma filter_all {A} (P : A → Prop) `{!∀ x, Decision (P x)} (l : list A) :
  (∀ x, x ∈ l → P x) → filter P l = l.
Proof.
  induction l as [|x l IH]; intros Hall; [done|].
  rewrite filter_cons, decide_True by (apply Hall; left).
  f_equal. apply IH. intros y Hy. apply Hall. by right.
Qed.

Lemma filter_none {A} (P : A → Prop) `{!∀ x, Decision (P x)} (l : list A) :
  (∀ x, x ∈ l → ¬ P x) → filter P l = [].
Proof.
  induction l as [|x l IH]; intros Hall; [done|].
  rewrite filter_cons, decide_False by (apply Hall; left).
  apply IH. intros y Hy. apply Hall. by right.
Qed.

Section Partition.

Context {B : Type} (c : Row → string) (point : Row → B).

(** The rows of a frame split by the value of a column: the groups of a
    duplicate-free list of values hold, together, the rows whose value is in
    the list, each once. *)
Lemma groups_Permutation (keys : list string) (data : DataFrame) :
  NoDup keys →
  mjoin ((λ k, point <$> filter (λ r, c r = k) data) <$> keys)
  ≡ₚ point <$> filter (λ r, c r ∈ keys) data.
Proof.
  induction 1 as [|k keys Hk Hnd IH]; cbn [fmap list_fmap mjoin list_join].
  - rewrite filter_none; [done|]. intros r _. apply not_elem_of_nil.
  - rewrite IH, <- fmap_app. apply fmap_Permutation.
    rewrite filter_disjoint_app; [|by intros r <- ?].
    rewrite (list_filter_iff _ (λ r, c r ∈ k :: keys)); [done|].
    intros r. by rewrite elem_of_cons.
Qed.

Lemma groups_unique_Permutation (data : DataFrame) :
  mjoin ((λ k, point <$> filter (λ r, c r = k) data) <$> unique (c <$> data))
  ≡ₚ point <$> data.
Proof.
  rewrite groups_Permutation by apply NoDup_unique.
  rewrite filter_all; [done|].
  intros r Hr. apply elem_of_unique, list_elem_of_fmap. by exists r.
Qed.

End Partition.

(** C3 (as the code has it): the frame goes to the area chart row by row,
    nothing is grouped or summed.  With the box ticked the chart gets one
    series holding the point (order date, sales) of every row, in row order.
    Otherwise it gets one series per product line of the table, each holding
    the points of the rows of that line in row order; the series together
    hold every row's point exactly once. *)
Theorem display_charts_fig_plots_rows (data : DataFrame) :
  display_charts_fig data true
  = [mkTrace None ((λ r, (ORDERDATE r, SALES r)) <$> data)]
  ∧ NoDup (trace_name <$> display_charts_fig data false)
  ∧ (∀ k, Some k ∈ trace_name <$> display_charts_fig data false
          ↔ ∃ r, r ∈ data ∧ PRODUCTLINE r = k)
  ∧ (∀ tr, tr ∈ display_charts_fig data false →
       ∃ k, trace_name tr = Some k
         ∧ trace_points tr
           = (λ r, (ORDERDATE r, SALES r)) <$> filter (λ r, PRODUCTLINE r = k) data)
  ∧ mjoin (trace_points <$> display_charts_fig data false)
    ≡ₚ (λ r, (ORDERDATE r, SALES r)) <$> data.
Proof.
  split; [reflexivity|].
  unfold display_charts_fig, px_area. rewrite <- !list_fmap_compose.
  split_and!.
  - apply NoDup_fmap_2; [|apply NoDup_unique]. by intros ?? [=].
  - intros k. rewrite list_elem_of_fmap. split.
    + intros (k' & [= <-] & Hk). apply elem_of_unique, list_elem_of_fmap in Hk.
      destruct Hk as (r & -> & Hr). by exists r.
    + intros (r & Hr & <-). exists (PRODUCTLINE r). split; [done|].
      apply elem_of_unique, list_elem_of_fmap. by exists r.
  - intros tr Htr. apply list_elem_of_fmap in Htr as (k & -> & _). by exists k.
  - apply (groups_unique_Permutation PRODUCTLINE).
Qed.

(** C3, the claim as written fails: two orders of one day stay two points of
    the series, where the aggregation has one point with their sum. *)
Lemma display_charts_fig_not_aggregated :
  display_charts_fig T_same_day true
  = [mkTrace None [(20240101, 100%Q); (20240101, 200%Q)]]
  ∧ salesOverTime T_same_day true = [mkTrace None [(20240101, 300%Q)]]
  ∧ display_charts_fig T_same_day true ≠ salesOverTime T_same_day true
  ∧ display_charts_fig T_same_day false ≠ salesOverTime T_same_day false
  ∧ ¬ Forall one_point_per_date (display_charts_fig T_same_day true)
  ∧ ¬ Forall one_point_per_date (display_charts_fig T_same_day false).
Proof.
  split_and!; [reflexivity|reflexivity|by vm_compute|by vm_compute| |].
  - intros H. apply Forall_cons in H as [H _].
    unfold one_point_per_date in H. cbn in H.
    apply NoDup_cons in H as [H _]. apply H. left.
  - intros H. apply Forall_cons in H as [H _].
    unfold one_point_per_date in H. cbn in H.
    apply NoDup_cons in H as [H _]. apply H. left.
Qed.

(** ** The scenario of the specification, run on the model *)

Example scenario_date_range :
  date_range T3 20240101 20240131 = take 2 T3.
Proof. reflexivity. Qed.

Example scenario_kpis :
  calculate_kpis (date_range T3 20240101 20240131)
  = [PyStr "0.00M"; PyInt 2; PyStr "0.15K"; PyInt 2].
Proof. reflexivity. Qed.

Example scenario_top_customers :
  top_customers_run (date_range T3 20240101 20240131)
  = [("B", 200%Q); ("A", 100%Q)].
Proof. reflexivity. Qed.

Example scenario_totals_by_product_line :
  total_sales_by_product_line (date_range T3 20240101 20240131)
  = [("Trucks", 200%Q); ("Vans", 100%Q)].
Proof. reflexivity. Qed.

Example scenario_pipeline :
  main_filtered_data no_datetime_isin T3
    (mkSelection ["Vans"; "Trucks"] [] [] 20240101 20240131)
  = Ok (take 2 T3).
Proof. reflexivity. Qed.

(** ** More on the filters *)

Section FilterAlgebra.

Context (datetime_isin : Z → list string → bool).

(** X1: [filter_data] is idempotent: filtering its own result again by the
    same column and list changes nothing. *)
Theorem filter_data_idempotent (T T' : DataFrame) (col : string) (L : list string) :
  filter_data datetime_isin T col L = Ok T' →
  filter_data datetime_isin T' col L = Ok T'.
Proof.
  intros H. destruct L as [|v L]; [done|].
  destruct (cell col) as [f|] eqn:Hcol.
  - rewrite (filter_data_nonempty _ _ _ _ f) in H by done.
    injection H as <-.
    rewrite (filter_data_nonempty _ _ _ _ f) by done. f_equal.
    rewrite list_filter_filter. apply list_filter_iff. tauto.
  - by rewrite filter_data_unknown in H.
Qed.

(** X2: two categorical filters on columns of the frame commute: either
    order gives the same table. *)
Theorem filter_data_commute (T : DataFrame) (c1 c2 : string) (L1 L2 : list string) :
  is_Some (cell c1) → is_Some (cell c2) →
  (filter_data datetime_isin T c1 L1 ≫= λ t, filter_data datetime_isin t c2 L2)
  = (filter_data datetime_isin T c2 L2 ≫= λ t, filter_data datetime_isin t c1 L1).
Proof.
  intros [f1 H1] [f2 H2].
  destruct L1 as [|v1 L1], L2 as [|v2 L2]; try done.
  - change (filter_data datetime_isin T c2 (v2 :: L2)
            = (filter_data datetime_isin T c2 (v2 :: L2) ≫= λ t, Ok t)).
    by destruct (filter_data datetime_isin T c2 (v2 :: L2)).
  - change ((filter_data datetime_isin T c1 (v1 :: L1) ≫= λ t, Ok t)
            = filter_data datetime_isin T c1 (v1 :: L1)).
    by destruct (filter_data datetime_isin T c1 (v1 :: L1)).
  - rewrite (filter_data_nonempty _ T c1 _ f1), (filter_data_nonempty _ T c2 _ f2) by done.
    cbn [mbind result_bind].
    rewrite (filter_data_nonempty _ _ c1 _ f1), (filter_data_nonempty _ _ c2 _ f2) by done.
    f_equal. rewrite !list_filter_filter. apply list_filter_iff. tauto.
Qed.

(** X3: the date-range step and a categorical filter commute, the
    [KeyError] of an unknown label included. *)
Theorem filter_data_date_range_commute (T : DataFrame) (col : string)
    (L : list string) (s e : Z) :
  filter_data datetime_isin (date_range T s e) col L
  = (filter_data datetime_isin T col L ≫= λ t, Ok (date_range t s e)).
Proof.
  destruct L as [|v L]; [done|].
  destruct (cell col) as [f|] eqn:Hcol.
  - rewrite !(filter_data_nonempty _ _ col _ f) by done.
    cbn [mbind result_bind]. f_equal.
    rewrite !date_range_filter, !list_filter_filter. apply list_filter_iff. tauto.
  - by rewrite !filter_data_unknown.
Qed.

(** X6: a list that holds every value the column takes in the table
    restricts nothing. *)
Theorem filter_data_all_values (T : DataFrame) (col : string) (L : list string)
    (key : Row → string) :
  cell col = Some (λ r, VStr (key r)) →
  (∀ r, r ∈ T → key r ∈ L) →
  filter_data datetime_isin T col L = Ok T.
Proof.
  intros Hcol Hall. rewrite (filter_data_categorical _ _ _ _ key) by done.
  f_equal. destruct L as [|v L]; [done|]. cbn [applyCategoricalFilter].
  by apply filter_all.
Qed.

End FilterAlgebra.

(** X4: two date ranges in a row keep the rows of their intersection. *)
Theorem date_range_compose (T : DataFrame) (s e s' e' : Z) :
  date_range (date_range T s e) s' e' = date_range T (s `max` s') (e `min` e').
Proof.
  rewrite !date_range_filter, list_filter_filter. apply list_filter_iff.
  intros r. lia.
Qed.

(** X5: a range whose start lies after its end keeps no row, and raises
    nothing. *)
Theorem date_range_inverted (T : DataFrame) (s e : Z) :
  e < s → date_range T s e = [].
Proof.
  intros H. rewrite date_range_filter. apply filter_none. intros r _. lia.
Qed.

(** ** More on the KPIs *)

Lemma nunique_subseteq `{EqDecision A} (s1 s2 : list A) :
  s1 ⊆ s2 → nunique s1 ≤ nunique s2.
Proof.
  intros Hsub. unfold nunique. apply inj_le, submseteq_length.
  apply NoDup_submseteq; [apply NoDup_remove_dups|].
  intros x. rewrite !elem_of_remove_dups. apply Hsub.
Qed.

(** X8: the order count is 0 on the table without rows and on no other, and
    so is the customer count: the divisor of the average is zero only
    there. *)
Theorem calculate_kpis_counts_zero_iff_empty (data : DataFrame) :
  ∃ sales_in_m orders average_sales_per_order customers,
    calculate_kpis data
    = [PyStr sales_in_m; PyInt orders; PyStr average_sales_per_order;
       PyInt customers]
    ∧ (orders = 0 ↔ data = [])
    ∧ (customers = 0 ↔ data = []).
Proof.
  eexists _, _, _, _. split; [reflexivity|]. split.
  - split; [|by intros ->].
    intros H. by apply nunique_zero, fmap_nil_inv in H.
  - split; [|by intros ->].
    intros H. by apply nunique_zero, fmap_nil_inv in H.
Qed.

(** X9: the two counts lie between 0 and the number of rows. *)
Theorem calculate_kpis_counts_bounded (data : DataFrame) :
  ∃ sales_in_m orders average_sales_per_order customers,
    calculate_kpis data
    = [PyStr sales_in_m; PyInt orders; PyStr average_sales_per_order;
       PyInt customers]
    ∧ 0 ≤ orders ≤ Z.of_nat (length data)
    ∧ 0 ≤ customers ≤ Z.of_nat (length data).
Proof.
  eexists _, _, _, _. split; [reflexivity|].
  unfold nunique. split.
  - pose proof (remove_dups_length_le (ORDERNUMBER <$> data)) as H.
    rewrite length_fmap in H. lia.
  - pose proof (remove_dups_length_le (CUSTOMERNAME <$> data)) as H.
    rewrite length_fmap in H. lia.
Qed.

(** X10: taking rows away never raises a count: on a table whose rows all
    occur in another, the numbers of orders and of customers are at most
    those of the other. *)
Theorem calculate_kpis_counts_monotone (T T' : DataFrame) :
  T' ⊆ T →
  ∃ m' o' k' c' m o k c,
    calculate_kpis T' = [m'; PyInt o'; k'; PyInt c']
    ∧ calculate_kpis T = [m; PyInt o; k; PyInt c]
    ∧ o' ≤ o ∧ c' ≤ c.
Proof.
  intros Hsub. eexists _, _, _, _, _, _, _, _.
  split; [reflexivity|]. split; [reflexivity|].
  split; apply nunique_subseteq; intros x;
    rewrite !list_elem_of_fmap; intros (r & -> & Hr); exists r; auto.
Qed.

Lemma calculate_kpis_counts_monotone_witness :
  ∃ m' o' k' c' m o k c,
    calculate_kpis (take 2 T3) = [m'; PyInt o'; k'; PyInt c']
    ∧ calculate_kpis T3 = [m; PyInt o; k; PyInt c]
    ∧ o' ≤ o ∧ c' ≤ c.
Proof.
  apply (calculate_kpis_counts_monotone T3 (take 2 T3)).
  apply sublist_subseteq, sublist_take.
Defined.

(** ** The metrics row *)

(** X11: [display_kpi_metrics] issues one [metric] call per position that
    the four columns, the labels and the values all have, in order, each in
    its own column with the label and the value of that position; surplus
    labels or values are passed over. *)
Theorem display_kpi_metrics_zip (kpis : list pyobj) (names : list string) :
  length (display_kpi_metrics kpis names)
  = (4 `min` (length names `min` length kpis))%nat
  ∧ ∀ i m, display_kpi_metrics kpis names !! i = Some m ↔
      (i < 4)%nat ∧ metric_col m = i
      ∧ names !! i = Some (metric_label m)
      ∧ kpis !! i = Some (metric_value m).
Proof.
  unfold display_kpi_metrics, st_columns. split.
  - by rewrite length_fmap, !length_zip, length_seq.
  - intros i [c l v]. rewrite list_lookup_fmap. cbn [metric_col metric_label metric_value].
    split.
    + intros H. apply fmap_Some in H as ([c' [l' v']] & Hz & [= -> -> ->]).
      apply lookup_zip_with_Some in Hz as (? & ? & [= <- <-] & Hc & Hz).
      apply lookup_zip_with_Some in Hz as (? & ? & [= <- <-] & Hl & Hv).
      apply lookup_seq in Hc as [-> Hlt]. done.
    + intros (Hlt & <- & Hl & Hv). apply fmap_Some. exists (c, (l, v)).
      split; [|done]. apply lookup_zip_with_Some. exists c, (l, v).
      split; [done|]. split; [by apply lookup_seq|].
      apply lookup_zip_with_Some. by exists l, v.
Qed.

(** ** [main]: from the selection to the metrics *)

Lemma main_filtered_data_stages (datetime_isin : Z → list string → bool)
    (data : DataFrame) (sel : Selection) :
  main_filtered_data datetime_isin data sel
  = Ok (applyCategoricalFilter
          (applyCategoricalFilter
             (applyCategoricalFilter
                (applyDateRange data (start_date sel) (end_date sel))
                PRODUCTLINE (selected_product_lines sel))
             COUNTRY (selected_countries sel))
          STATUS (selected_statuses sel)).
Proof.
  unfold main_filtered_data. rewrite date_range_filter.
  fold (applyDateRange data (start_date sel) (end_date sel)).
  rewrite (filter_data_categorical _ _ "PRODUCTLINE" _ PRODUCTLINE) by done.
  cbn [mbind result_bind].
  rewrite (filter_data_categorical _ _ "COUNTRY" _ COUNTRY) by done.
  cbn [mbind result_bind].
  by rewrite (filter_data_categorical _ _ "STATUS" _ STATUS).
Qed.

(** X12: whatever the table and the selection, [main] raises no [KeyError]
    and shows exactly four metrics, in columns 0 to 3: each label of
    [kpi_names] with the entry of [calculate_kpis], taken on the filtered
    table, at the same position. *)
Theorem main_metrics_four (datetime_isin : Z → list string → bool)
    (data : DataFrame) (sel : Selection) :
  ∃ filtered_data sales_in_m total_orders average_sales_per_order unique_customers,
    main_filtered_data datetime_isin data sel = Ok filtered_data
    ∧ calculate_kpis filtered_data
      = [sales_in_m; total_orders; average_sales_per_order; unique_customers]
    ∧ main_metrics datetime_isin data sel
      = Ok [ mkMetric 0 "Total Sales" sales_in_m;
             mkMetric 1 "Total Orders" total_orders;
             mkMetric 2 "Average Sales per Order" average_sales_per_order;
             mkMetric 3 "Unique Customers" unique_customers ].
Proof.
  eexists _, _, _, _, _. split; [apply main_filtered_data_stages|].
  split; [reflexivity|].
  unfold main_metrics. rewrite main_filtered_data_stages. reflexivity.
Qed.

(** X13: when the selection leaves no row, the metrics row shows a zero
    total, zero counts and, for the average, the text nanK. *)
Theorem main_metrics_no_rows (datetime_isin : Z → list string → bool)
    (data : DataFrame) (sel : Selection) :
  main_filtered_data datetime_isin data sel = Ok [] →
  main_metrics datetime_isin data sel
  = Ok [ mkMetric 0 "Total Sales" (PyStr "0.00M");
         mkMetric 1 "Total Orders" (PyInt 0);
         mkMetric 2 "Average Sales per Order" (PyStr "nanK");
         mkMetric 3 "Unique Customers" (PyInt 0) ].
Proof. intros H. unfold main_metrics. rewrite H. reflexivity. Qed.

Lemma main_metrics_no_rows_witness :
  main_metrics no_datetime_isin T3 (mkSelection [] ["France"] [] 20240101 20240201)
  = Ok [ mkMetric 0 "Total Sales" (PyStr "0.00M");
         mkMetric 1 "Total Orders" (PyInt 0);
         mkMetric 2 "Average Sales per Order" (PyStr "nanK");
         mkMetric 3 "Unique Customers" (PyInt 0) ].
Proof. apply main_metrics_no_rows. reflexivity. Defined.

(** ** The sidebar on a first run *)

Lemma series_max_spec (s : list Z) (m : Z) :
  series_max s = Some m → m ∈ s ∧ ∀ x, x ∈ s → x ≤ m.
Proof.
  destruct s as [|y s]; [done|]. intros [= <-].
  induction s as [|z s [IH1 IH2]]; cbn [foldr].
  - split; [left|]. by intros x ->%list_elem_of_singleton.
  - split.
    + destruct (Z.max_spec z (foldr Z.max y s)) as [[_ ->]|[_ ->]].
      * apply elem_of_cons in IH1 as [->|?]; [left|right; by right].
      * right; left.
    + intros x Hx. apply elem_of_cons in Hx as [->|Hx].
      * specialize (IH2 y ltac:(left)). lia.
      * apply elem_of_cons in Hx as [->|Hx]; [lia|].
        specialize (IH2 x ltac:(by right)). lia.
Qed.

Lemma series_min_spec (s : list Z) (m : Z) :
  series_min s = Some m → m ∈ s ∧ ∀ x, x ∈ s → m ≤ x.
Proof.
  destruct s as [|y s]; [done|]. intros [= <-].
  induction s as [|z s [IH1 IH2]]; cbn [foldr].
  - split; [left|]. by intros x ->%list_elem_of_singleton.
  - split.
    + destruct (Z.min_spec z (foldr Z.min y s)) as [[_ ->]|[_ ->]].
      * right; left.
      * apply elem_of_cons in IH1 as [->|?]; [left|right; by right].
    + intros x Hx. apply elem_of_cons in Hx as [->|Hx].
      * specialize (IH2 y ltac:(left)). lia.
      * apply elem_of_cons in Hx as [->|Hx]; [lia|].
        specialize (IH2 x ltac:(by right)). lia.
Qed.

Lemma filter_ext_in {A} (P Q : A → Prop)
    `{!∀ x, Decision (P x)} `{!∀ x, Decision (Q x)} (l : list A) :
  (∀ x, x ∈ l → P x ↔ Q x) → filter P l = filter Q l.
Proof.
  induction l as [|x l IH]; intros Hall; [done|].
  rewrite !filter_cons.
  assert (Hx : P x ↔ Q x) by (apply Hall; left).
  rewrite IH by (intros y Hy; apply Hall; by right).
  destruct (decide (P x)), (decide (Q x)); tauto.
Qed.

Lemma elem_of_product_lines (data : DataFrame) (k : string) :
  k ∈ product_lines data ↔ ∃ r, r ∈ data ∧ PRODUCTLINE r = k.
Proof.
  unfold product_lines.
  rewrite merge_sort_Permutation, elem_of_unique, list_elem_of_fmap.
  split; intros (r & ? & ?); exists r; by split.
Qed.

(** X14: the options of the product-line widget are the product lines of
    the table, each once, in strictly ascending order. *)
Theorem product_lines_sorted (data : DataFrame) :
  StronglySorted str_lt (product_lines data)
  ∧ ∀ k, k ∈ product_lines data ↔ ∃ r, r ∈ data ∧ PRODUCTLINE r = k.
Proof.
  split; [|apply elem_of_product_lines].
  apply (StronglySorted_strict str_le).
  - intros x y Hle Hne. by apply str_le_lt_or_eq in Hle as [?| ->].
  - apply StronglySorted_merge_sort; apply _.
  - unfold product_lines. rewrite merge_sort_Permutation. apply NoDup_unique.
Qed.

(** X15: on a first run over a non-empty table, with [midnight] never later
    than its argument, [main] keeps the rows dated up to the midnight that
    opens the last order day, and only those: an order later on that day is
    left out.  When every order date is itself a midnight the whole table is
    kept. *)
Theorem display_sidebar_initial_keeps (midnight : Z → Z)
    (datetime_isin : Z → list string → bool) (data : DataFrame) :
  data ≠ [] →
  (∀ t, midnight t ≤ t) →
  ∃ sel hi,
    display_sidebar_initial midnight data = Some sel
    ∧ series_max (ORDERDATE <$> data) = Some hi
    ∧ main_filtered_data datetime_isin data sel
      = Ok (filter (λ r, ORDERDATE r ≤ midnight (midnight hi)) data)
    ∧ ((∀ r, r ∈ data → midnight (ORDERDATE r) = ORDERDATE r) →
       main_filtered_data datetime_isin data sel = Ok data).
Proof.
  intros Hne Hmid.
  destruct (series_max (ORDERDATE <$> data)) as [hi|] eqn:Hhi;
    [|by destruct data].
  destruct (series_min (ORDERDATE <$> data)) as [lo|] eqn:Hlo;
    [|by destruct data].
  pose proof (series_max_spec _ _ Hhi) as [Hhi_in Hhi_le].
  pose proof (series_min_spec _ _ Hlo) as [_ Hlo_le].
  eexists _, hi. unfold display_sidebar_initial. rewrite Hhi, Hlo.
  cbn [mbind option_bind]. split; [reflexivity|]. split; [reflexivity|].
  assert (Hkeep :
    main_filtered_data datetime_isin data
      (mkSelection (product_lines data) [] [] (midnight lo) (midnight (midnight hi)))
    = Ok (filter (λ r, ORDERDATE r ≤ midnight (midnight hi)) data)).
  { rewrite main_filtered_data_stages.
    cbn [start_date end_date selected_product_lines selected_countries
         selected_statuses applyCategoricalFilter].
    f_equal. unfold applyDateRange.
    rewrite (filter_ext_in _ (λ r, ORDERDATE r ≤ midnight (midnight hi))).
    - destruct (product_lines data) as [|k ks] eqn:Hpl; [done|].
      cbn [applyCategoricalFilter]. rewrite <- Hpl. apply filter_all.
      intros r Hr. apply elem_of_product_lines. exists r. split; [|done].
      by apply list_elem_of_filter in Hr as [_ ?].
    - intros r Hr. split; [tauto|]. intros Hle. split; [|done].
      pose proof (Hmid lo). 
      assert (lo ≤ ORDERDATE r); [|lia].
      apply Hlo_le, list_elem_of_fmap. by exists r. }
  split; [exact Hkeep|].
  intros Hdates. rewrite Hkeep. f_equal. apply filter_all.
  intros r Hr. apply list_elem_of_fmap in Hhi_in as (r' & -> & Hr').
  rewrite !(Hdates r' Hr'). apply Hhi_le, list_elem_of_fmap. by exists r.
Qed.

Lemma display_sidebar_initial_keeps_witness :
  ∃ sel hi,
    display_sidebar_initial (λ t, t) T3 = Some sel
    ∧ series_max (ORDERDATE <$> T3) = Some hi
    ∧ main_filtered_data no_datetime_isin T3 sel
      = Ok (filter (λ r, ORDERDATE r ≤ hi) T3)
    ∧ ((∀ r, r ∈ T3 → ORDERDATE r = ORDERDATE r) →
       main_filtered_data no_datetime_isin T3 sel = Ok T3).
Proof.
  apply (display_sidebar_initial_keeps (λ t, t) no_datetime_isin T3).
  - discriminate.
  - intros t. lia.
Defined.

(** ** Sums over groups *)

Lemma series_sum_app (s1 s2 : list Q) :
  (series_sum (s1 ++ s2) == series_sum s1 + series_sum s2)%Q.
Proof.
  induction s1 as [|x s1 IH]; cbn.
  - by rewrite Qplus_0_l.
  - fold (series_sum (s1 ++ s2)). fold (series_sum s1). rewrite IH. ring.
Qed.

Lemma series_sum_Permutation (s1 s2 : list Q) :
  s1 ≡ₚ s2 → (series_sum s1 == series_sum s2)%Q.
Proof.
  induction 1 as [|x s1 s2 _ IH|x y s|s1 s2 s3 _ IH1 _ IH2]; cbn.
  - reflexivity.
  - fold (series_sum s1). fold (series_sum s2). by rewrite IH.
  - ring.
  - by rewrite IH1.
Qed.

Lemma series_sum_mjoin (ls : list (list Q)) :
  (series_sum (series_sum <$> ls) == series_sum (mjoin ls))%Q.
Proof.
  induction ls as [|s ls IH]; [reflexivity|].
  cbn [fmap list_fmap mjoin list_join]. rewrite series_sum_app.
  cbn. fold (series_sum (series_sum <$> ls)). by rewrite IH.
Qed.

Lemma groupby_sum_total_aux (key : Row → string) (data : DataFrame) :
  (series_sum (groupby_sum key data).*2 == series_sum (SALES <$> data))%Q.
Proof.
  unfold groupby_sum. rewrite <- list_fmap_compose.
  change (snd ∘ _) with
    (series_sum ∘ (λ k, SALES <$> filter (λ r, key r = k) data)).
  rewrite list_fmap_compose, series_sum_mjoin.
  apply series_sum_Permutation.
  rewrite (groups_Permutation key SALES).
  - rewrite filter_all; [done|]. intros r Hr.
    rewrite merge_sort_Permutation, elem_of_remove_dups, list_elem_of_fmap.
    by exists r.
  - rewrite merge_sort_Permutation. apply NoDup_remove_dups.
Qed.

(** X16: the totals by product line add up to the sum of the whole SALES
    column (amounts taken as exact numbers): the table accounts for every
    sale once. *)
Theorem total_sales_by_product_line_total (data : DataFrame) :
  (series_sum (total_sales_by_product_line data).*2
   == series_sum (SALES <$> data))%Q.
Proof. unfold total_sales_by_product_line. apply groupby_sum_total_aux. Qed.

(** ** More on the ranked tables *)

#[global] Instance by_sales_desc_total {K} : Total (@by_sales_desc K).
Proof.
  intros a b. unfold by_sales_desc.
  destruct (Qlt_le_dec a.2 b.2) as [H|H]; [right|left]; [|done].
  by apply Qlt_le_weak.
Qed.

#[global] Instance by_sales_desc_trans {K} : Transitive (@by_sales_desc K).
Proof. intros a b c H1 H2. unfold by_sales_desc in *. by eapply Qle_trans. Qed.

(** The first rows of a frame sorted by SALES, descending. *)
Lemma head_sort_values_by_sales_desc {K} (n : nat) (frame sorted : list (K * Q)) :
  sort_values_by_sales_desc frame sorted →
  length (head n sorted) = (n `min` length frame)%nat
  ∧ StronglySorted by_sales_desc (head n sorted)
  ∧ head n sorted `sublist_of` sorted
  ∧ (∀ a, a ∈ head n sorted → a ∈ frame)
  ∧ (∀ a, a ∈ frame → a ∉ head n sorted →
       ∀ b, b ∈ head n sorted → by_sales_desc b a).
Proof.
  intros [Hperm Hsorted]. unfold head.
  apply (Sorted_StronglySorted _ _) in Hsorted.
  split_and!.
  - by rewrite length_take, Hperm.
  - rewrite <- (take_drop n sorted) in Hsorted.
    by apply StronglySorted_app_1_l in Hsorted.
  - apply sublist_take.
  - intros a Ha. rewrite <- Hperm.
    by apply (sublist_subseteq _ _ (sublist_take sorted n)).
  - intros a Ha Hout b Hb. rewrite <- Hperm, <- (take_drop n sorted) in Ha.
    apply elem_of_app in Ha as [?|Ha]; [done|].
    rewrite <- (take_drop n sorted) in Hsorted.
    apply (StronglySorted_app_1_elem_of _ _ _ _ _ Hsorted Hb Ha).
Qed.

Lemma groupby2_sum_keys (key1 key2 : Row → string) (data : DataFrame) :
  (groupby2_sum key1 key2 data).*1
  = merge_sort pair_le (remove_dups ((λ r, (key1 r, key2 r)) <$> data)).
Proof.
  unfold groupby2_sum. rewrite <- list_fmap_compose. apply list_fmap_id.
Qed.

Lemma groupby2_sum_elem (key1 key2 : Row → string) (data : DataFrame)
    (k : string * string) (s : Q) :
  (k, s) ∈ groupby2_sum key1 key2 data ↔
    (∃ r, r ∈ data ∧ (key1 r, key2 r) = k)
    ∧ s = series_sum (SALES <$> filter (λ r, (key1 r, key2 r) = k) data).
Proof.
  unfold groupby2_sum. rewrite list_elem_of_fmap. split.
  - intros (k' & [= -> ->] & Hk). split; [|done].
    rewrite merge_sort_Permutation, elem_of_remove_dups, list_elem_of_fmap in Hk.
    destruct Hk as (r & -> & Hr). by exists r.
  - intros [(r & Hr & <-) ->]. exists (key1 r, key2 r). split; [done|].
    rewrite merge_sort_Permutation, elem_of_remove_dups, list_elem_of_fmap.
    by exists r.
Qed.

(** X17: [top_products] always yields a result; any result has at most 10
    rows, one per pair (product code, product line) that occurs, each with
    the sum of the sales of the rows of that pair, in descending order of
    the sums, and no pair left out has a larger sum than one that is
    shown. *)
Theorem top_products_ranked_by_sales (data : DataFrame) :
  top_products data (top_products_run data)
  ∧ ∀ out, top_products data out →
      (length out ≤ 10)%nat
      ∧ StronglySorted by_sales_desc out
      ∧ NoDup out.*1
      ∧ (∀ code line s, (code, line, s) ∈ out →
           (∃ r, r ∈ data ∧ PRODUCTCODE r = code ∧ PRODUCTLINE r = line)
           ∧ s = series_sum (SALES <$> filter
                   (λ r, (PRODUCTCODE r, PRODUCTLINE r) = (code, line)) data))
      ∧ (∀ a, a ∈ groupby2_sum PRODUCTCODE PRODUCTLINE data → a ∉ out →
           ∀ b, b ∈ out → (a.2 <= b.2)%Q).
Proof.
  split.
  - eexists. split; [|done].
    split; [apply merge_sort_Permutation|apply Sorted_merge_sort; apply _].
  - intros out (sorted & Hsort & ->).
    pose proof Hsort as [Hperm _].
    apply (head_sort_values_by_sales_desc 10) in Hsort
      as (Hlen & Hsorted & Hsub & Hin & Htop).
    split_and!; [rewrite Hlen; lia|done| | |done].
    + eapply sublist_NoDup; [|by apply fmap_sublist].
      rewrite Hperm, groupby2_sum_keys, merge_sort_Permutation.
      apply NoDup_remove_dups.
    + intros code line s Hs. apply Hin, groupby2_sum_elem in Hs as [(r & Hr & [= <- <-]) ->].
      split; [by exists r|done].
Qed.

Lemma top_products_ranked_by_sales_witness :
  top_products T3 [("S2", "Trucks", 200%Q); ("S1", "Vans", 150%Q)]
  ∧ StronglySorted by_sales_desc [("S2", "Trucks", 200%Q); ("S1", "Vans", 150%Q)].
Proof.
  assert (H : top_products T3 [("S2", "Trucks", 200%Q); ("S1", "Vans", 150%Q)]).
  { exists [("S2", "Trucks", 200%Q); ("S1", "Vans", 150%Q)].
    split; [|reflexivity]. split.
    - change (groupby2_sum PRODUCTCODE PRODUCTLINE T3)
        with [("S1", "Vans", 150%Q); ("S2", "Trucks", 200%Q)].
      apply perm_swap.
    - repeat constructor. unfold by_sales_desc, Qle. cbn. lia. }
  split; [exact H|].
  exact (proj1 (proj2 (proj2 (top_products_ranked_by_sales T3) _ H))).
Defined.

(** X18: when no two customers have equal totals, [top_customers] has a
    single possible result. *)
Theorem top_customers_unique_without_ties (data : DataFrame) (out1 out2 : Summary) :
  (∀ a b, a ∈ groupby_sum CUSTOMERNAME data → b ∈ groupby_sum CUSTOMERNAME data →
     (a.2 == b.2)%Q → a = b) →
  top_customers data out1 → top_customers data out2 → out1 = out2.
Proof.
  intros Hties (s1 & [Hp1 Hs1] & ->) (s2 & [Hp2 Hs2] & ->). f_equal.
  apply (Sorted_unique_strong sales_ge); [|done|done|by rewrite Hp1, Hp2].
  intros a b Ha Hb Hab Hba. rewrite Hp1 in Ha. rewrite Hp2 in Hb.
  apply Hties; [done|done|]. by apply Qle_antisym.
Qed.

Lemma top_customers_unique_without_ties_witness :
  top_customers_run T3 = [("B", 200%Q); ("A", 150%Q)].
Proof.
  assert (H : top_customers T3 [("B", 200%Q); ("A", 150%Q)]).
  { exists [("B", 200%Q); ("A", 150%Q)]. split; [|reflexivity]. split.
    - change (groupby_sum CUSTOMERNAME T3) with [("A", 150%Q); ("B", 200%Q)].
      apply perm_swap.
    - repeat constructor. unfold sales_ge, Qle. cbn. lia. }
  apply (top_customers_unique_without_ties T3); [|apply top_customers_run_ok|exact H].
  change (groupby_sum CUSTOMERNAME T3) with [("A", 150%Q); ("B", 200%Q)].
  intros a b Ha Hb Hab.
  apply elem_of_cons in Ha as [->|Ha]; [|apply list_elem_of_singleton in Ha as ->];
  (apply elem_of_cons in Hb as [->|Hb]; [|apply list_elem_of_singleton in Hb as ->]);
  try reflexivity; discriminate Hab.
Defined.

(** X19: with at most 10 customers nobody is cut: any result of
    [top_customers] is a rearrangement of the whole grouped table, so its
    sums add up to the sum of the SALES column (amounts taken as exact
    numbers). *)
Theorem top_customers_all_listed (data : DataFrame) (out : Summary) :
  (length (remove_dups (CUSTOMERNAME <$> data)) ≤ 10)%nat →
  top_customers data out →
  out ≡ₚ groupby_sum CUSTOMERNAME data
  ∧ (series_sum out.*2 == series_sum (SALES <$> data))%Q.
Proof.
  intros Hlen (sorted & [Hperm Hsorted] & ->).
  assert (Hout : head 10 sorted ≡ₚ groupby_sum CUSTOMERNAME data).
  { unfold head. rewrite take_ge; [done|].
    rewrite Hperm. unfold groupby_sum.
    by rewrite length_fmap, merge_sort_Permutation. }
  split; [exact Hout|].
  rewrite <- (groupby_sum_total_aux CUSTOMERNAME data).
  apply series_sum_Permutation. by rewrite Hout.
Qed.

Lemma top_customers_all_listed_witness :
  [("B", 200%Q); ("A", 150%Q)] ≡ₚ groupby_sum CUSTOMERNAME T3
  ∧ (series_sum [("B", 200%Q); ("A", 150%Q)].*2 == series_sum (SALES <$> T3))%Q.
Proof.
  apply (top_customers_all_listed T3).
  - vm_compute. lia.
  - exists [("B", 200%Q); ("A", 150%Q)]. split; [|reflexivity]. split.
    + change (groupby_sum CUSTOMERNAME T3) with [("A", 150%Q); ("B", 200%Q)].
      apply perm_swap.
    + repeat constructor. unfold sales_ge, Qle. cbn. lia.
Defined.

(** ** The filter laws on the scenario table *)

Lemma filter_data_idempotent_witness :
  filter_data no_datetime_isin (filter (λ r, PRODUCTLINE r = "Vans") T3)
    "PRODUCTLINE" ["Vans"]
  = Ok (filter (λ r, PRODUCTLINE r = "Vans") T3).
Proof.
  apply (filter_data_idempotent no_datetime_isin T3). reflexivity.
Defined.

Lemma filter_data_commute_witness :
  (filter_data no_datetime_isin T3 "PRODUCTLINE" ["Vans"]
     ≫= λ t, filter_data no_datetime_isin t "CUSTOMERNAME" ["B"; "A"])
  = (filter_data no_datetime_isin T3 "CUSTOMERNAME" ["B"; "A"]
       ≫= λ t, filter_data no_datetime_isin t "PRODUCTLINE" ["Vans"]).
Proof.
  apply (filter_data_commute no_datetime_isin T3); by eexists.
Defined.

Lemma filter_data_all_values_witness :
  filter_data no_datetime_isin T3 "COUNTRY" ["USA"; "France"] = Ok T3.
Proof.
  apply (filter_data_all_values no_datetime_isin T3 "COUNTRY" _ COUNTRY).
  - reflexivity.
  - apply Forall_forall. repeat constructor.
Defined.

Lemma date_range_inverted_witness :
  date_range T3 20240201 20240101 = [].
Proof. apply date_range_inverted. lia. Defined.

Lemma elem_of_applyCategoricalFilter (t : DataFrame) (key : Row → string)
    (L : list string) (r : Row) :
  r ∈ applyCategoricalFilter t key L ↔ r ∈ t ∧ (L = [] ∨ key r ∈ L).
Proof.
  destruct L as [|v L]; cbn [applyCategoricalFilter].
  - split; [auto|tauto].
  - rewrite list_elem_of_filter. split; [tauto|].
    intros [Hr [?|?]]; done.
Qed.

(** X20: a row reaches the KPIs and the charts exactly when it is a row of
    the loaded table, its order date lies in the chosen range, bounds
    included, and for each of product line, country and status the list
    chosen is empty or holds the row's value. *)
Theorem main_filtered_data_rows (datetime_isin : Z → list string → bool)
    (data : DataFrame) (sel : Selection) :
  ∃ filtered_data,
    main_filtered_data datetime_isin data sel = Ok filtered_data
    ∧ ∀ r, r ∈ filtered_data ↔
        r ∈ data
        ∧ start_date sel ≤ ORDERDATE r ≤ end_date sel
        ∧ (selected_product_lines sel = [] ∨ PRODUCTLINE r ∈ selected_product_lines sel)
        ∧ (selected_countries sel = [] ∨ COUNTRY r ∈ selected_countries sel)
        ∧ (selected_statuses sel = [] ∨ STATUS r ∈ selected_statuses sel).
Proof.
  eexists. split; [apply main_filtered_data_stages|].
  intros r. rewrite !elem_of_applyCategoricalFilter.
  unfold applyDateRange. rewrite list_elem_of_filter. tauto.
Qed.
